(** * ScraperB3Derivatives: the bulletin record extractor

    A shallow embedding of [src/webscrapers/B3derivatives/b3derivatives.py]
    and the properties of its scanner, field slicer, normalizer, schema
    lookup and maturity-code translation.

    Text is a list of ASCII characters, Python integers are [Z] (the value
    -1 that [str.find] returns for a miss is kept as it is, because the
    source does arithmetic with it), exceptions are values of [exn] carried
    by [result], and the [while] loop runs on fuel. *)

From Stdlib Require Import ZArith List Ascii String Lia Bool.
From stdpp Require Import base option list strings gmap.

Local Open Scope Z_scope.

(** ** Python values and exceptions *)

Abbreviation str := (list ascii).

Definition lit (s : string) : str := list_ascii_of_string s.

Definition dquote : ascii := "034"%char.

Inductive exn : Type :=
  | AttributeError (msg : str)
  | KeyError (key : str)
  | IndexError
  | TypeError
  | ValueError.

Inductive result (A : Type) : Type :=
  | Ok (a : A)
  | Raise (e : exn).

Arguments Ok {A} a.
Arguments Raise {A} e.

Global Instance result_ret : MRet result := fun A a => Ok a.
Global Instance result_bind : MBind result := fun A B f r =>
  match r with
  | Ok a => f a
  | Raise e => Raise e
  end.
Global Instance result_fmap : FMap result := fun A B f r =>
  match r with
  | Ok a => Ok (f a)
  | Raise e => Raise e
  end.

Definition raises {A} (r : result A) : bool :=
  match r with
  | Ok _ => false
  | Raise _ => true
  end.

(** ** The Python primitives the scraper uses *)

Module Py.

(** [s.startswith(sub)] *)
Fixpoint startswith (sub s : str) : bool :=
  match sub, s with
  | [], _ => true
  | _ :: _, [] => false
  | a :: sub', b :: s' => if Ascii.eqb a b then startswith sub' s' else false
  end.

(** Lowest index at which [sub] occurs in [s], if any. *)
Fixpoint index_of (sub s : str) : option nat :=
  if startswith sub s then Some 0%nat
  else match s with
       | [] => None
       | _ :: s' => S <$> index_of sub s'
       end.

(** [s.find(sub)]: the lowest index, or -1 when [sub] does not occur. *)
Definition find (sub s : str) : Z :=
  match index_of sub s with
  | Some i => Z.of_nat i
  | None => -1
  end.

(** How Python turns one bound of a slice into a position: a negative
    bound counts from the end, and every bound is clipped to the
    sequence. *)
Definition clip (len i : Z) : Z :=
  if i <? 0 then Z.max 0 (i + len) else Z.min i len.

(** [l[lo:hi]], a missing bound being [None]. *)
Definition slice {A} (l : list A) (lo hi : option Z) : list A :=
  let len := Z.of_nat (length l) in
  let a := from_option (clip len) 0 lo in
  let b := from_option (clip len) len hi in
  take (Z.to_nat (b - a)) (drop (Z.to_nat a) l).

(** [s[i]] as a one-character string. *)
Definition getitem (s : str) (i : Z) : result str :=
  let len := Z.of_nat (length s) in
  let j := if i <? 0 then i + len else i in
  if (0 <=? j) && (j <? len)
  then match s !! Z.to_nat j with
       | Some c => Ok [c]
       | None => Raise IndexError
       end
  else Raise IndexError.

(** [s.split(sep)] for a separator of one character. *)
Fixpoint split (sep : ascii) (s : str) : list str :=
  match s with
  | [] => [[]]
  | c :: s' =>
      if Ascii.eqb c sep then [] :: split sep s'
      else match split sep s' with
           | [] => [[c]]
           | w :: ws => (c :: w) :: ws
           end
  end.

(** [s.replace(c, '')] for a one-character [c]. *)
Definition remove_char (c : ascii) (s : str) : str :=
  List.filter (fun d => negb (Ascii.eqb d c)) s.

Definition is_lower (c : ascii) : bool :=
  (97 <=? nat_of_ascii c)%nat && (nat_of_ascii c <=? 122)%nat.

(** [s.upper()] on ASCII text. *)
Definition upper (s : str) : str :=
  List.map (fun c => if is_lower c then ascii_of_nat (nat_of_ascii c - 32) else c) s.

Definition is_digit (c : ascii) : bool :=
  (48 <=? nat_of_ascii c)%nat && (nat_of_ascii c <=? 57)%nat.

Definition digit_value (c : ascii) : Z := Z.of_nat (nat_of_ascii c) - 48.

(** [int(s)] for the one-character strings the scraper passes to it. *)
Definition int (s : str) : result Z :=
  match s with
  | [c] => if is_digit c then Ok (digit_value c) else Raise ValueError
  | _ => Raise ValueError
  end.

(** [x in l] for a list of strings. *)
Definition contains (l : list str) (x : str) : bool := bool_decide (x ∈ l).

End Py.

(** ** Class constants *)

Definition key_string_center : str :=
  lit "</tr><td class=" ++ dquote :: lit "text-center" ++ dquote :: lit ">".
Definition sep_string_center : str :=
  lit "<td class=" ++ dquote :: lit "text-center" ++ dquote :: lit ">".
Definition sep_string_right : str :=
  lit "<td class=" ++ dquote :: lit "text-right" ++ dquote :: lit ">".
Definition str_sep : str := lit "</td>".
Definition merc_identifier : str := lit "MercFut3 = MercFut3 + ".
(** [item_sep] is the one-character string [;]. *)
Definition item_sep : ascii := ";"%char.

Definition col2num : gset str :=
  list_to_set (lit <$>
    ["OPEN_INTEREST_OPEN"; "OPEN_INTEREST_CLOSE"; "NUMBER_OF_TRADES"; "TRADING_VOLUME";
     "FINANCIAL_VOLUME"; "PREVIOUS_SETTLEMENT"; "INDEXED_SETTLEMENT"; "OPENING_PRICE";
     "MINIMUM_PRICE"; "MAXIMUM_PRICE"; "AVERAGE_PRICE"; "LAST_PRICE"; "SETTLEMENT_PRICE";
     "LAST_BID"; "LAST_OFFER"]%string).

Definition col2drop : gset str :=
  list_to_set (lit <$> ["JUNK1"; "CHANGE"; "VARIATION"]%string).

Definition mat_dict : gmap str str :=
  list_to_map
    ((fun p => (lit p.1, lit p.2)) <$>
     [("JAN", "F"); ("FEV", "G"); ("MAR", "H"); ("ABR", "J"); ("MAI", "K"); ("JUN", "M");
      ("JUL", "N"); ("AGO", "Q"); ("SET", "U"); ("OUT", "V"); ("NOV", "X"); ("DEZ", "Z")]%string).

Definition lkeyc : Z := Z.of_nat (length key_string_center).
Definition lsepc : Z := Z.of_nat (length sep_string_center).
Definition lsepr : Z := Z.of_nat (length sep_string_right).

(** ** [_get_header] *)

Definition header_rates : list str :=
  lit <$>
  ["MATURITY_CODE"; "OPEN_INTEREST_OPEN"; "OPEN_INTEREST_CLOSE"; "NUMBER_OF_TRADES";
   "TRADING_VOLUME"; "FINANCIAL_VOLUME"; "JUNK1"; "PREVIOUS_SETTLEMENT"; "INDEXED_SETTLEMENT";
   "OPENING_PRICE"; "MINIMUM_PRICE"; "MAXIMUM_PRICE"; "AVERAGE_PRICE"; "LAST_PRICE";
   "SETTLEMENT_PRICE"; "CHANGE"; "LAST_BID"; "LAST_OFFER"]%string.

Definition header_futures : list str :=
  lit <$>
  ["MATURITY_CODE"; "OPEN_INTEREST_OPEN"; "OPEN_INTEREST_CLOSE"; "NUMBER_OF_TRADES";
   "TRADING_VOLUME"; "FINANCIAL_VOLUME"; "JUNK1"; "OPENING_PRICE"; "MINIMUM_PRICE"; "MAXIMUM_PRICE";
   "AVERAGE_PRICE"; "LAST_PRICE"; "SETTLEMENT_PRICE"; "CHANGE"; "LAST_BID"; "LAST_OFFER"]%string.

Definition header_forward : list str :=
  lit <$>
  ["MATURITY_CODE"; "NUMBER_OF_TRADES"; "TRADING_VOLUME"; "FINANCIAL_VOLUME"; "JUNK1";
   "OPENING_PRICE"; "MINIMUM_PRICE"; "MAXIMUM_PRICE"; "AVERAGE_PRICE"; "LAST_PRICE";
   "SETTLEMENT_PRICE"; "CHANGE"; "LAST_BID"; "LAST_OFFER"]%string.

Definition family_rates : list str := lit <$> ["DI1"; "DAP"; "DDI"]%string.
Definition family_futures : list str := lit <$> ["DOL"; "BGI"; "ICF"; "CCM"; "AUD"]%string.
Definition family_forward : list str := lit <$> ["FRC"]%string.

Definition not_available (contract : str) : str :=
  lit "Contract " ++ contract ++ lit " is not available yet.".

Definition _get_header (contract : str) : result (list str) :=
  if Py.contains family_rates contract then Ok header_rates
  else if Py.contains family_futures contract then Ok header_futures
  else if Py.contains family_forward contract then Ok header_forward
  else Raise (AttributeError (not_available contract)).

(** ** Data frames

    A column of a frame has a dtype: the columns the scanner builds hold
    strings and missing values ([object]), the columns [pd.to_numeric]
    returns hold numbers and missing values.  A number is kept as the exact
    decimal the text denotes ([digits / 10 ^ scale]); pandas stores the
    nearest float, or the integer when a whole column is integral. *)

Inductive number : Type := Dec (digits : N) (scale : nat).

Inductive column : Type :=
  | ObjCol (vals : list (option str))
  | NumCol (vals : list (option number)).

(** A frame is its index labels (one date string a row; the conversion
    [pd.to_datetime(df.index)] changes their type only and is left out)
    and its columns in order.  Every frame the scraper builds has distinct
    column names, and [get_column] and [set_column] below read [df[name]]
    under that convention. *)
Record DataFrame : Type := mkDF {
  index : list str;
  columns : list (str * column)
}.

Definition col_names (df : DataFrame) : list str := (columns df).*1.

(** [pd.DataFrame(columns=header)] *)
Definition empty_frame (header : list str) : DataFrame :=
  mkDF [] ((fun name => (name, ObjCol [])) <$> header).

(** A frame of one row over [header], [pd.DataFrame(index=[date],
    columns=header)], is kept as the list of its cells in header order. *)
Definition new_row (header : list str) : list (option str) :=
  replicate (length header) None.

Definition col_push (c : column) (v : option str) : column :=
  match c with
  | ObjCol vals => ObjCol (vals ++ [v])
  | NumCol vals => NumCol (vals ++ [None])
  end.

(** [df.append(row_df)] for a row over the columns of [df]. *)
Definition df_append (df : DataFrame) (date : str) (row : list (option str)) : DataFrame :=
  mkDF (index df ++ [date])
       (zip_with (fun nc v => (nc.1, col_push nc.2 v)) (columns df) row).

(** [df.empty] *)
Definition df_empty (df : DataFrame) : bool :=
  match index df, columns df with
  | [], _ | _, [] => true
  | _, _ => false
  end.

(** ** The field slicer: the [for] loop of [_scrape_single_date] *)

(** The [if]/[elif] that sets [start_str] and [end_str] for one
    sub-fragment; there is no [else], so both keep their values when no
    cell marker occurs. *)
Definition cell_bounds (x : str) (start_str end_str : Z) : Z * Z :=
  if Py.find sep_string_center x >? -1 then
    (Py.find sep_string_center x + lsepc, Py.find str_sep x)
  else if Py.find sep_string_right x >? -1 then
    (Py.find sep_string_right x + lsepr, Py.find str_sep x)
  else (start_str, end_str).

Definition cell_text (x : str) (start_str end_str : Z) : str :=
  Py.remove_char " "%char (Py.slice x (Some start_str) (Some end_str)).

(** [row_df[header[i]].loc[date] = to_add]: [header[i]] raises when [i] is
    past the header; the names of a header are distinct, so the column it
    names is the [i]-th. *)
Definition set_field (header : list str) (i : nat) (to_add : str)
    (row_df : list (option str)) : result (list (option str)) :=
  match header !! i with
  | Some _ => Ok (<[i := Some to_add]> row_df)
  | None => Raise IndexError
  end.

Fixpoint fill_row (header : list str) (xs : list str) (i : nat)
    (start_str end_str : Z) (row_df : list (option str)) : result (list (option str)) :=
  match xs with
  | [] => Ok row_df
  | x :: xs' =>
      let '(start_str, end_str) := cell_bounds x start_str end_str in
      let to_add := cell_text x start_str end_str in
      row_df ← (if bool_decide (to_add ≠ []) then set_field header i to_add row_df
                else Ok row_df);
      fill_row header xs' (S i) start_str end_str row_df
  end.

(** The sub-fragments the slicer keeps: [core.split(item_sep)[:-5]]. *)
Definition retained (core : str) : list str :=
  Py.slice (Py.split item_sep core) None (Some (-5)).

(** ** The row fragment scanner: the [while] loop of [_scrape_single_date] *)

(** One pass of the loop body up to [resp_str = resp_str[end_str:]]:
    [None] when no row-start marker is left, else the two bounds, the
    fragment [core] and what is left of the blob. *)
Definition next_fragment (resp_str : str) : option (Z * Z * str * str) :=
  if Py.find key_string_center resp_str >? -1 then
    let start_str := Py.find key_string_center resp_str in
    let end_str :=
      start_str + lkeyc
      + Py.find merc_identifier (Py.slice resp_str (Some (start_str + lkeyc)) None) in
    Some (start_str, end_str,
          Py.slice resp_str (Some start_str) (Some end_str),
          Py.slice resp_str (Some end_str) None)
  else None.

(** The loop, with the data frame it grows.  [None] is fuel running out. *)
Fixpoint scan_loop (fuel : nat) (header : list str) (date : str)
    (resp_str : str) (df : DataFrame) : option (result DataFrame) :=
  match fuel with
  | O => None
  | S fuel' =>
      match next_fragment resp_str with
      | Some (start_str, end_str, core, rest) =>
          match fill_row header (retained core) 0 start_str end_str (new_row header) with
          | Ok row_df => scan_loop fuel' header date rest (df_append df date row_df)
          | Raise e => Some (Raise e)
          end
      | None => Some (Ok df)
      end
  end.

(** The fragments alone, in the order the loop meets them. *)
Fixpoint fragments (fuel : nat) (resp_str : str) : option (list str) :=
  match fuel with
  | O => None
  | S fuel' =>
      match next_fragment resp_str with
      | Some (_, _, core, rest) => (core ::.) <$> fragments fuel' rest
      | None => Some []
      end
  end.

(** Fuel that always suffices (see [scan_loop_total]). *)
Definition enough_fuel (resp_str : str) : nat := S (length resp_str).

(** ** Column access *)

(** [df[name]] *)
Definition get_column (df : DataFrame) (name : str) : result column :=
  match list_find (fun nc => nc.1 = name) (columns df) with
  | Some (_, nc) => Ok nc.2
  | None => Raise (KeyError name)
  end.

(** [df[name] = c] for a column that exists. *)
Definition set_column (df : DataFrame) (name : str) (c : column) : DataFrame :=
  mkDF (index df)
       ((fun nc => if decide (nc.1 = name) then (name, c) else nc) <$> columns df).

(** [df.drop(name, axis=1)] *)
Definition df_drop (df : DataFrame) (name : str) : result DataFrame :=
  if bool_decide (name ∈ col_names df)
  then Ok (mkDF (index df) (List.filter (fun nc => negb (bool_decide (nc.1 = name))) (columns df)))
  else Raise (KeyError name).

(** ** [_parse_str2num] *)

(** The characters the regular expression [[^0-9.]] leaves in place. *)
Definition numeric_char (c : ascii) : bool := Py.is_digit c || Ascii.eqb c "."%char.

Definition strip_non_numeric (s : str) : str := List.filter numeric_char s.

Definition digits_value (s : str) : N :=
  fold_left (fun acc c => (10 * acc + (N_of_ascii c - 48))%N) s 0%N.

(** The digits a string starts with, and what follows them. *)
Fixpoint leading_digits (s : str) : str * str :=
  match s with
  | c :: s' =>
      if Py.is_digit c then let '(ds, rest) := leading_digits s' in (c :: ds, rest)
      else ([], s)
  | [] => ([], [])
  end.

(** What [pd.to_numeric] makes of one string over digits and points: a
    number when there is at least one digit and at most one point, and
    nothing otherwise (the empty string included).  Only such strings reach
    it, after [strip_non_numeric]. *)
Definition parse_number (s : str) : option number :=
  let '(int_part, rest) := leading_digits s in
  match rest with
  | [] => if bool_decide (int_part = []) then None else Some (Dec (digits_value int_part) 0)
  | c :: frac_part =>
      if Ascii.eqb c "."%char && forallb Py.is_digit frac_part
         && negb (bool_decide (int_part = []) && bool_decide (frac_part = []))
      then Some (Dec (digits_value (int_part ++ frac_part)) (length frac_part))
      else None
  end.

Definition str_accessor_error : exn :=
  AttributeError (lit "Can only use .str accessor with string values!").

(** [series.str.replace('[^0-9.]', '')]: the [.str] accessor exists on
    object columns only, and a missing value stays missing. *)
Definition str_replace_non_numeric (c : column) : result column :=
  match c with
  | ObjCol vals => Ok (ObjCol (option_map strip_non_numeric <$> vals))
  | NumCol _ => Raise str_accessor_error
  end.

(** [pd.to_numeric(series, errors='coerce')] *)
Definition to_numeric (c : column) : column :=
  match c with
  | ObjCol vals => NumCol ((fun v => v ≫= parse_number) <$> vals)
  | NumCol vals => NumCol vals
  end.

(** The body of the loop over [cols_to_parse], for the columns in the
    order [cols]. *)
Fixpoint parse_cols (cols : list str) (df : DataFrame) : result DataFrame :=
  match cols with
  | [] => Ok df
  | col :: cols' =>
      c ← get_column df col;
      c ← str_replace_non_numeric c;
      let df := set_column df col c in
      c ← get_column df col;
      let df := set_column df col (to_numeric c) in
      parse_cols cols' df
  end.

Definition _parse_str2num (df : DataFrame) : result DataFrame :=
  let cols_in_df : gset str := list_to_set (col_names df) in
  let cols_to_parse := cols_in_df ∩ col2num in
  parse_cols (elements cols_to_parse) df.

(** ** [_drop_useless_columns] *)

Fixpoint drop_cols (cols : list str) (df : DataFrame) : result DataFrame :=
  match cols with
  | [] => Ok df
  | col :: cols' => df ← df_drop df col; drop_cols cols' df
  end.

Definition _drop_useless_columns (df : DataFrame) : result DataFrame :=
  let cols_in_df : gset str := list_to_set (col_names df) in
  let cols_to_drop := cols_in_df ∩ col2drop in
  drop_cols (elements cols_to_drop) df.

(** The two steps as [_scrape_single_date] chains them. *)
Definition normalizer (df : DataFrame) : result DataFrame :=
  df ← _parse_str2num df; _drop_useless_columns df.

(** ** [_append_contract_column] *)

Definition _append_contract_column (contract date : str) (df : DataFrame) : DataFrame :=
  let n := length (index df) in
  mkDF (replicate n date)
       ((lit "CONTRACT", ObjCol (replicate n (Some contract))) :: columns df).

(** ** [_change_old_maturity_code] and [_change_contract_name] *)

Definition dict_get (d : gmap str str) (key : str) : result str :=
  match d !! key with
  | Some v => Ok v
  | None => Raise (KeyError key)
  end.

Definition _change_old_maturity_code (code date : str) : result str :=
  month_code ← dict_get mat_dict (Py.slice code None (Some (-1)));
  code_last ← Py.getitem code (-1);
  code_digit ← Py.int code_last;
  date_last ← Py.getitem date (-1);
  date_digit ← Py.int date_last;
  if code_digit >=? date_digit
  then Ok (month_code ++ lit "0" ++ code_last)
  else Ok (month_code ++ lit "1" ++ code_last).

(** [len(series.iloc[0])]: the first value must exist and be a string. *)
Definition len_iloc0 (c : column) : result Z :=
  match c with
  | ObjCol [] | NumCol [] => Raise IndexError
  | ObjCol (Some s :: _) => Ok (Z.of_nat (length s))
  | ObjCol (None :: _) | NumCol (_ :: _) => Raise TypeError
  end.

(** [series.apply(f)] for an [f] that slices its argument: a value that is
    not a string is a [TypeError]. *)
Definition series_apply (f : str -> result str) (c : column) : result column :=
  match c with
  | ObjCol vals =>
      ObjCol <$> mapM (M := result)
        (fun v => match v with
                  | Some s => Some <$> f s
                  | None => Raise TypeError
                  end) vals
  | NumCol [] => Ok (ObjCol [])
  | NumCol (_ :: _) => Raise TypeError
  end.

Definition _change_contract_name (df : DataFrame) (date : str) : result DataFrame :=
  c ← get_column df (lit "MATURITY_CODE");
  n ← len_iloc0 c;
  if n >=? 4 then
    let my_func := fun x => _change_old_maturity_code x date in
    c ← get_column df (lit "MATURITY_CODE");
    c ← series_apply my_func c;
    Ok (set_column df (lit "MATURITY_CODE") c)
  else Ok df.

(** ** [_scrape_single_date] and [scrape] *)

Section Extraction.

(** The page body [requests.get(url, params=...).text] for a date and a
    contract. *)
Variable fetch : str -> str -> str.

(** [pd.concat([df, df_date], join='outer')], where [df_date] may be
    [None]. *)
Variable concat : DataFrame -> option DataFrame -> DataFrame.

(** [None] outside is fuel running out, which [scan_loop_total] rules
    out; [Ok None] is the bare [return] on an empty frame. *)
Definition _scrape_single_date (contract date : str) : option (result (option DataFrame)) :=
  let contract := Py.upper contract in
  match _get_header contract with
  | Raise e => Some (Raise e)
  | Ok header =>
      let df := empty_frame header in
      let resp_str := fetch date contract in
      r ← scan_loop (enough_fuel resp_str) header date resp_str df;
      Some (df ← r;
            df ← _parse_str2num df;
            df ← _drop_useless_columns df;
            let df := _append_contract_column contract date df in
            if df_empty df then Ok None
            else Some <$> _change_contract_name df date)
  end.

(** The loop of [scrape] over the dates of the range, already formatted
    mm/dd/yyyy, with [update_db] false. *)
Fixpoint scrape_dates (contract : str) (date_list : list str) (df : DataFrame)
    : option (result DataFrame) :=
  match date_list with
  | [] => Some (Ok df)
  | d :: date_list' =>
      match _scrape_single_date contract d with
      | None => None
      | Some (Raise e) => Some (Raise e)
      | Some (Ok df_date) => scrape_dates contract date_list' (concat df df_date)
      end
  end.

Definition scrape (contract : str) (date_list : list str) : option (result DataFrame) :=
  scrape_dates contract date_list (mkDF [] []).

End Extraction.

(** ** Vocabulary of the statements *)

(** Every position at which [sub] occurs in [s], in increasing order. *)
Fixpoint occurrences (sub s : str) : list nat :=
  (if Py.startswith sub s then [0%nat] else []) ++
  match s with
  | [] => []
  | _ :: s' => S <$> occurrences sub s'
  end.

(** The position [i] seen from position [n] on: [i - n] when [n <= i]. *)
Definition seen_from (n i : nat) : option nat :=
  if decide (n <= i)%nat then Some (i - n)%nat else None.

(** The row-start marker without its last character. *)
Definition key_cut : str := Py.slice key_string_center None (Some (-1)).

(** Two rows and the bulletin-end marker after them. *)
Definition blob_two_rows : str :=
  key_string_center ++ lit "F23</td>" ++ key_string_center ++ lit "G23</td>"
  ++ merc_identifier.

(** Two rows and no bulletin-end marker. *)
Definition blob_no_end : str :=
  key_string_center ++ lit "F23</td>" ++ key_string_center ++ lit "G23</td>".

(** A cell whose class is neither of the two the slicer knows. *)
Definition unmarked_cell : str :=
  lit "<td class=" ++ dquote :: lit "text-left" ++ dquote :: lit ">123456789</td>".

(** One row of three cells, the second one unmarked. *)
Definition blob_unmarked : str :=
  key_string_center ++ lit "F23</td>;" ++ unmarked_cell ++ lit ";"
  ++ sep_string_right ++ lit "7</td>;;;;;" ++ merc_identifier.

(** How many times the character [c] occurs in [s]. *)
Definition count_char (c : ascii) (s : str) : nat :=
  length (List.filter (fun d => Ascii.eqb d c) s).

(** The nine contract codes [_get_header] knows. *)
Definition supported : list str := family_rates ++ family_futures ++ family_forward.

(** A date written mm/dd/yyyy. *)
Definition mmddyyyy (date : str) : bool :=
  match date with
  | [m1; m2; s1; d1; d2; s2; y1; y2; y3; y4] =>
      forallb Py.is_digit [m1; m2; d1; d2; y1; y2; y3; y4]
      && Ascii.eqb s1 "/"%char && Ascii.eqb s2 "/"%char
  | _ => false
  end.

(** The last character of a date, which is the last digit of its year. *)
Definition year_last_char (date : str) : ascii := List.last date "0"%char.

(** A frame of two rows, the first with a legacy maturity code and the
    second with a canonical one. *)
Definition df_mixed : DataFrame :=
  mkDF [lit "01/02/2009"; lit "01/02/2009"]
       [(lit "CONTRACT", ObjCol [Some (lit "DI1"); Some (lit "DI1")]);
        (lit "MATURITY_CODE", ObjCol [Some (lit "JAN8"); Some (lit "F23")])].

Definition is_object (c : column) : bool :=
  match c with
  | ObjCol _ => true
  | NumCol _ => false
  end.

Definition is_numeric (c : column) : bool := negb (is_object c).

(** What the two assignments of [_parse_str2num] make of a column of
    strings: each string is stripped and parsed, a missing value stays
    missing. *)
Definition coerce (c : column) : column :=
  match c with
  | ObjCol vals =>
      NumCol ((fun v => v ≫= fun s => parse_number (strip_non_numeric s)) <$> vals)
  | NumCol vals => NumCol vals
  end.

(** A frame as the scanner leaves it, with one row. *)
Definition df_raw : DataFrame :=
  mkDF [lit "01/02/2019"]
       [(lit "MATURITY_CODE", ObjCol [Some (lit "F23")]);
        (lit "JUNK1", ObjCol [None]);
        (lit "LAST_PRICE", ObjCol [Some (lit "1.234,56")]);
        (lit "LAST_BID", ObjCol [Some (lit "-")])].

(** [df_raw] after one run of the normalizer. *)
Definition df_once : DataFrame :=
  mkDF [lit "01/02/2019"]
       [(lit "MATURITY_CODE", ObjCol [Some (lit "F23")]);
        (lit "LAST_PRICE", NumCol [Some (Dec 123456 5)]);
        (lit "LAST_BID", NumCol [None])].

(** The frame [_parse_str2num] returns for a frame of strings: the
    designated columns coerced, the others as they were. *)
Definition coerced (df : DataFrame) : DataFrame :=
  mkDF (index df)
       ((fun nc => if bool_decide (nc.1 ∈ col2num) then (nc.1, coerce nc.2) else nc)
          <$> columns df).

(** A frame as the scanner builds it over [header]: the header's columns in
    order, each one of strings and missing values with a cell for each row
    of the index. *)
Definition object_frame (header : list str) (df : DataFrame) : Prop :=
  col_names df = header /\
  Forall (fun nc => exists vals, nc.2 = ObjCol vals /\ length vals = length (index df))
         (columns df).

(** The names of [header] that are no noise columns, in order. *)
Definition kept_names (header : list str) : list str :=
  List.filter (fun name => negb (bool_decide (name ∈ col2drop))) header.

(** [sub] and [s] differ at a position both of them have. *)
Fixpoint clash (sub s : str) : bool :=
  match sub, s with
  | a :: sub', b :: s' => if Ascii.eqb a b then clash sub' s' else true
  | _, _ => false
  end.

(** [sub] clashes with [pre] from every position of [pre] on, so that it
    starts nowhere inside [pre], whatever text follows [pre]. *)
Fixpoint never_starts_in (sub pre : str) : bool :=
  match pre with
  | [] => true
  | _ :: pre' => clash sub pre && never_starts_in sub pre'
  end.

(** The text of a sub-fragment as the slicer takes it, given the bounds
    the sub-fragment before it left. *)
Definition sliced (x : str) (start_str end_str : Z) : str :=
  let '(start_str, end_str) := cell_bounds x start_str end_str in
  cell_text x start_str end_str.

(** What a row keeps of a sliced text: nothing when it is empty. *)
Definition to_null (t : str) : option str :=
  if bool_decide (t ≠ []) then Some t else None.

(** The three shapes of a cell of the bulletin: a centred cell, the first
    cell of a row (the row-start marker is a centred cell after a row
    end) and a right-aligned cell, each with the text [post] after it. *)
Definition center_cell (v post : str) : str := sep_string_center ++ v ++ str_sep ++ post.
Definition first_cell (v post : str) : str := key_string_center ++ v ++ str_sep ++ post.
Definition right_cell (v post : str) : str := sep_string_right ++ v ++ str_sep ++ post.

(** [sep.join(pieces)] for a separator of one character. *)
Fixpoint join (sep : ascii) (pieces : list str) : str :=
  match pieces with
  | [] => []
  | [p] => p
  | p :: ps => p ++ sep :: join sep ps
  end.

(** A row of the bulletin: the first cell, the right-aligned cells and the
    trailing pieces that follow the last cell, joined by the separator. *)
Definition render_row (v0 : str) (vs : list str) (trail : list str) : str :=
  join item_sep (first_cell v0 [] :: (((fun v => right_cell v []) <$> vs) ++ trail)).

(** * Properties *)

(** ** Facts about [find] and slices *)

Lemma startswith_length sub s :
  Py.startswith sub s = true -> (length sub <= length s)%nat.
Proof.
  revert s; induction sub as [|a sub IH]; intros [|b s]; simpl; try lia; try done.
  destruct (Ascii.eqb a b); [|done]. intros H%IH. lia.
Qed.

Lemma index_of_bound sub s i :
  Py.index_of sub s = Some i -> (i + length sub <= length s)%nat.
Proof.
  revert i; induction s as [|c s IH]; intros i; simpl.
  - destruct (Py.startswith sub []) eqn:E; [|done].
    intros [= <-]. apply startswith_length in E. simpl in *; lia.
  - destruct (Py.startswith sub (c :: s)) eqn:E.
    + intros [= <-]. apply startswith_length in E. simpl in *; lia.
    + destruct (Py.index_of sub s) as [j|]; simpl; [|done].
      intros [= <-]. specialize (IH j eq_refl). lia.
Qed.

Lemma find_range sub s :
  -1 <= Py.find sub s /\
  (0 <= Py.find sub s ->
   Py.find sub s + Z.of_nat (length sub) <= Z.of_nat (length s)).
Proof.
  unfold Py.find. destruct (Py.index_of sub s) as [i|] eqn:E.
  - apply index_of_bound in E. lia.
  - lia.
Qed.

Lemma slice_from {A} (l : list A) (a : Z) :
  0 <= a -> Py.slice l (Some a) None = drop (Z.to_nat a) l.
Proof.
  intros Ha. unfold Py.slice, Py.clip; simpl.
  destruct (a <? 0) eqn:E; [lia|].
  destruct (Z.le_gt_cases a (Z.of_nat (length l))) as [Hle|Hgt].
  - rewrite Z.min_l by lia. apply take_ge. rewrite length_drop. lia.
  - rewrite Z.min_r by lia. rewrite Z.sub_diag. simpl.
    symmetry. apply drop_ge. lia.
Qed.

Lemma slice_between {A} (l : list A) (a b : Z) :
  0 <= a <= b -> b <= Z.of_nat (length l) ->
  Py.slice l (Some a) (Some b) = take (Z.to_nat (b - a)) (drop (Z.to_nat a) l).
Proof.
  intros Ha Hb. unfold Py.slice, Py.clip; simpl.
  destruct (a <? 0) eqn:E1; [lia|]. destruct (b <? 0) eqn:E2; [lia|].
  rewrite !Z.min_l by lia. done.
Qed.

Lemma lkeyc_val : lkeyc = 29.
Proof. reflexivity. Qed.

(** ** The scanner moves forward *)

(** What one pass of the loop leaves of the blob, when it finds a
    row-start marker. *)
Lemma next_fragment_rest resp_str start_str end_str core rest :
  next_fragment resp_str = Some (start_str, end_str, core, rest) ->
  lkeyc - 1 <= end_str <= Z.of_nat (length resp_str) /\
  rest = drop (Z.to_nat end_str) resp_str.
Proof.
  unfold next_fragment.
  destruct (Py.find key_string_center resp_str >? -1) eqn:Hfound; [|done].
  intros [= <- <- <- <-].
  destruct (find_range key_string_center resp_str) as [_ Hkey].
  assert (0 <= Py.find key_string_center resp_str) as Hpos by lia.
  specialize (Hkey Hpos). fold lkeyc in Hkey.
  rewrite (slice_from resp_str (_ + lkeyc)) by (rewrite lkeyc_val; lia).
  set (tail := drop _ resp_str).
  destruct (find_range merc_identifier tail) as [Hlo Hhi].
  assert (Z.of_nat (length tail) =
          Z.of_nat (length resp_str) - (Py.find key_string_center resp_str + lkeyc)) as Htail.
  { unfold tail. rewrite length_drop. rewrite lkeyc_val in *. lia. }
  split.
  - split; [lia|].
    destruct (Z.le_gt_cases 0 (Py.find merc_identifier tail)) as [H0|H0].
    + specialize (Hhi H0). lia.
    + lia.
  - apply slice_from. rewrite lkeyc_val. lia.
Qed.

Lemma next_fragment_shrinks resp_str start_str end_str core rest :
  next_fragment resp_str = Some (start_str, end_str, core, rest) ->
  (length rest + 28 <= length resp_str)%nat.
Proof.
  intros H. apply next_fragment_rest in H as [[Hlo Hhi] ->].
  rewrite length_drop. rewrite lkeyc_val in Hlo. lia.
Qed.

Lemma scan_loop_total fuel header date resp_str df :
  (length resp_str < fuel)%nat ->
  is_Some (scan_loop fuel header date resp_str df).
Proof.
  revert resp_str df. induction fuel as [|fuel IH]; intros resp_str df Hfuel; [lia|].
  simpl. destruct (next_fragment resp_str) as [[[[s e] core] rest]|] eqn:Hnext; [|done].
  apply next_fragment_shrinks in Hnext.
  destruct (fill_row _ _ _ _ _ _); [|done].
  apply IH. lia.
Qed.

Lemma fragments_total fuel resp_str :
  (length resp_str < fuel)%nat -> is_Some (fragments fuel resp_str).
Proof.
  revert resp_str. induction fuel as [|fuel IH]; intros resp_str Hfuel; [lia|].
  simpl. destruct (next_fragment resp_str) as [[[[s e] core] rest]|] eqn:Hnext; [|done].
  apply next_fragment_shrinks in Hnext.
  destruct (IH rest) as [fs ->]; [lia|]. done.
Qed.

(** C10. The scanner's loop terminates on every blob: a pass that finds a
    row-start marker moves the scan pointer by at least the marker's length
    minus one, which is 28 characters, and never past the end of the blob,
    so what is left of the blob is strictly shorter; with fuel above the
    blob's length both the loop and the list of fragments come out, and a
    fragment costs at least 28 characters of blob. *)
Theorem scanner_terminates (header : list str) (date blob : str) (df : DataFrame) :
  match next_fragment blob with
  | Some (start_str, end_str, core, rest) =>
      0 < lkeyc - 1 /\ lkeyc - 1 <= end_str <= Z.of_nat (length blob) /\
      rest = drop (Z.to_nat end_str) blob /\
      (length rest < length blob)%nat
  | None => True
  end /\
  is_Some (scan_loop (enough_fuel blob) header date blob df) /\
  is_Some (fragments (enough_fuel blob) blob).
Proof.
  split; [|split].
  - destruct (next_fragment blob) as [[[[s e] core] rest]|] eqn:Hnext; [|done].
    pose proof (next_fragment_shrinks _ _ _ _ _ Hnext) as Hshrink.
    apply next_fragment_rest in Hnext as [Hbounds Hrest].
    rewrite lkeyc_val in *. repeat split; try lia. done.
  - apply scan_loop_total. unfold enough_fuel. lia.
  - apply fragments_total. unfold enough_fuel. lia.
Qed.

(** ** Occurrences of a marker and [find] *)

Lemma index_of_head sub s : Py.index_of sub s = head (occurrences sub s).
Proof.
  induction s as [|c s IH]; simpl.
  - destruct (Py.startswith sub []); done.
  - destruct (Py.startswith sub (c :: s)); simpl; [done|].
    rewrite IH. destruct (occurrences sub s); done.
Qed.

Lemma find_head sub s :
  Py.find sub s = from_option Z.of_nat (-1) (head (occurrences sub s)).
Proof. unfold Py.find. rewrite index_of_head. destruct (head _); done. Qed.

Lemma occurrences_bound sub s i :
  i ∈ occurrences sub s -> (i + length sub <= length s)%nat.
Proof.
  revert i; induction s as [|c s IH]; intros i; simpl;
    rewrite elem_of_app; intros [Hi|Hi].
  - destruct (Py.startswith sub []) eqn:E; [|by apply elem_of_nil in Hi].
    apply list_elem_of_singleton in Hi as ->. apply startswith_length in E. simpl in *; lia.
  - by apply elem_of_nil in Hi.
  - destruct (Py.startswith sub (c :: s)) eqn:E; [|by apply elem_of_nil in Hi].
    apply list_elem_of_singleton in Hi as ->. apply startswith_length in E. simpl in *; lia.
  - apply list_elem_of_fmap in Hi as (j & -> & Hj). apply IH in Hj. lia.
Qed.

Lemma occurrences_increasing sub s i j l :
  occurrences sub s = i :: j :: l -> (i < j)%nat.
Proof.
  revert i j l; induction s as [|c s IH]; intros i j l; simpl.
  - destruct (Py.startswith sub []); done.
  - destruct (Py.startswith sub (c :: s)); simpl.
    + intros [= <- H]. destruct (occurrences sub s); simplify_eq/=. lia.
    + destruct (occurrences sub s) as [|i' [|j' l']] eqn:E; intros Heq; simplify_eq/=.
      specialize (IH _ _ _ eq_refl). lia.
Qed.

Lemma seen_from_shift n (l : list nat) : omap (seen_from (S n)) (S <$> l) = omap (seen_from n) l.
Proof.
  induction l as [|i l IH]; [done|].
  rewrite fmap_cons. simpl.
  replace (seen_from (S n) (S i)) with (seen_from n i)
    by (unfold seen_from; repeat case_decide; try lia; done).
  destruct (seen_from n i); [f_equal|]; exact IH.
Qed.

Lemma occurrences_drop sub s n :
  (n <= length s)%nat ->
  occurrences sub (drop n s) = omap (seen_from n) (occurrences sub s).
Proof.
  revert s; induction n as [|n IH]; intros s Hn.
  - rewrite drop_0. induction (occurrences sub s) as [|i l IHl]; [done|].
    simpl. f_equal; [lia | exact IHl].
  - destruct s as [|c s]; simpl in Hn; [lia|].
    change (drop (S n) (c :: s)) with (drop n s). rewrite IH by lia.
    simpl occurrences. rewrite omap_app, seen_from_shift.
    destruct (Py.startswith sub (c :: s)); done.
Qed.

(** ** How many fragments the scanner yields *)

Lemma no_marker_no_fragment resp_str :
  occurrences key_string_center resp_str = [] -> next_fragment resp_str = None.
Proof.
  intros H. unfold next_fragment. rewrite find_head, H. done.
Qed.

(** The loop appends one row for each fragment. *)
Lemma scan_loop_rows fuel header date resp_str df df' :
  scan_loop fuel header date resp_str df = Some (Ok df') ->
  exists frags, fragments fuel resp_str = Some frags /\
    length (index df') = (length (index df) + length frags)%nat.
Proof.
  revert resp_str df. induction fuel as [|fuel IH]; intros resp_str df; simpl; [done|].
  destruct (next_fragment resp_str) as [[[[s e] core] rest]|].
  - destruct (fill_row _ _ _ _ _ _) as [row|]; [|done].
    intros (frags & -> & Hlen)%IH. exists (core :: frags). split; [done|].
    rewrite Hlen. simpl. rewrite length_app. simpl. lia.
  - intros [= <-]. exists []. split; [done|]. simpl; lia.
Qed.

Lemma one_fragment_to_end_marker (blob : str) (fuel i1 i2 m : nat) :
  (length blob < fuel)%nat ->
  occurrences key_string_center blob = [i1; i2] ->
  occurrences merc_identifier blob = [m] ->
  (i2 + length key_string_center <= m)%nat ->
  fragments fuel blob = Some [Py.slice blob (Some (Z.of_nat i1)) (Some (Z.of_nat m))].
Proof.
  intros Hfuel Hkey Hmerc Hm.
  pose proof (occurrences_increasing _ _ _ _ _ Hkey) as Hlt.
  assert (m + length merc_identifier <= length blob)%nat as Hmlen.
  { apply occurrences_bound. rewrite Hmerc. apply list_elem_of_singleton. done. }
  assert (length key_string_center = 29%nat) as Hk by reflexivity.
  rewrite Hk in Hm.
  assert (next_fragment blob =
          Some (Z.of_nat i1, Z.of_nat m,
                Py.slice blob (Some (Z.of_nat i1)) (Some (Z.of_nat m)),
                drop m blob)) as Hnext.
  { unfold next_fragment. rewrite find_head, Hkey. simpl.
    destruct (Z.of_nat i1 >? -1) eqn:E; [|lia].
    rewrite !slice_from by (rewrite ?lkeyc_val; lia).
    rewrite lkeyc_val.
    replace (Z.to_nat (Z.of_nat i1 + 29)) with (i1 + 29)%nat by lia.
    rewrite find_head, occurrences_drop, Hmerc by lia. simpl.
    unfold seen_from. case_decide; [|lia]. simpl.
    replace (Z.of_nat i1 + 29 + Z.of_nat (m - (i1 + 29))) with (Z.of_nat m) by lia.
    rewrite slice_from by lia. rewrite Nat2Z.id. done. }
  destruct fuel as [|[|fuel]]; [lia|lia|].
  simpl. rewrite Hnext.
  rewrite no_marker_no_fragment; [done|].
  rewrite occurrences_drop, Hkey by lia. simpl.
  unfold seen_from. repeat case_decide; try lia. done.
Qed.

(** C6, as the code has it. A blob with exactly two row-start markers and
    exactly one bulletin-end marker, placed after both, yields exactly one
    fragment: it runs from the first row-start marker to the bulletin-end
    marker and holds the second row-start marker inside. A blob with no
    row-start marker yields no fragment, and the loop ends at once with the
    frame as it was, without error. *)
Theorem scanner_fragment_count (header : list str) (date blob : str)
    (df : DataFrame) (fuel : nat) :
  (length blob < fuel)%nat ->
  (forall i1 i2 m : nat,
     occurrences key_string_center blob = [i1; i2] ->
     occurrences merc_identifier blob = [m] ->
     (i2 + length key_string_center <= m)%nat ->
     fragments fuel blob
     = Some [Py.slice blob (Some (Z.of_nat i1)) (Some (Z.of_nat m))]) /\
  (occurrences key_string_center blob = [] ->
   fragments fuel blob = Some [] /\
   scan_loop fuel header date blob df = Some (Ok df)).
Proof.
  intros Hfuel. split.
  - intros i1 i2 m. by apply one_fragment_to_end_marker.
  - intros Hnone. apply no_marker_no_fragment in Hnone.
    destruct fuel as [|fuel]; [lia|]. simpl. rewrite Hnone. done.
Qed.

Lemma scanner_fragment_count_witness :
  fragments (enough_fuel blob_two_rows) blob_two_rows
  = Some [key_string_center ++ lit "F23</td>" ++ key_string_center ++ lit "G23</td>"] /\
  fragments (enough_fuel (lit "<html></html>")) (lit "<html></html>") = Some [] /\
  scan_loop (enough_fuel (lit "<html></html>")) header_rates (lit "01/02/2019")
    (lit "<html></html>") (empty_frame header_rates)
  = Some (Ok (empty_frame header_rates)).
Proof.
  split.
  - apply (proj1 (scanner_fragment_count header_rates (lit "01/02/2019") blob_two_rows
                    (empty_frame header_rates) (enough_fuel blob_two_rows)
                    ltac:(unfold enough_fuel; lia)) 0%nat 37%nat 74%nat);
      vm_compute; try reflexivity; lia.
  - apply (proj2 (scanner_fragment_count header_rates (lit "01/02/2019") (lit "<html></html>")
                    (empty_frame header_rates) (enough_fuel (lit "<html></html>"))
                    ltac:(unfold enough_fuel; lia))).
    vm_compute; reflexivity.
Defined.

(** C6 as stated fails: two row-start markers followed by one bulletin-end
    marker do not give two fragments. *)
Lemma two_markers_not_two_fragments :
  ~ (forall (blob : str) (i1 i2 m : nat),
       occurrences key_string_center blob = [i1; i2] ->
       occurrences merc_identifier blob = [m] ->
       (i2 + length key_string_center <= m)%nat ->
       exists f1 f2, fragments (enough_fuel blob) blob = Some [f1; f2]).
Proof.
  intros H.
  destruct (H blob_two_rows 0%nat 37%nat 74%nat) as (f1 & f2 & Hf);
    [vm_compute; reflexivity | vm_compute; reflexivity | vm_compute; lia |].
  vm_compute in Hf. discriminate Hf.
Qed.

(** ** A row-start marker with no bulletin-end marker after it *)

Lemma startswith_take sub s :
  Py.startswith sub s = true -> take (length sub) s = sub.
Proof.
  revert s; induction sub as [|a sub IH]; intros [|b s]; simpl; try done.
  destruct (Ascii.eqb a b) eqn:E; [|done].
  apply Ascii.eqb_eq in E as ->. intros H%IH. by rewrite H.
Qed.

Lemma occurrences_startswith sub s i :
  i ∈ occurrences sub s -> Py.startswith sub (drop i s) = true.
Proof.
  revert i; induction s as [|c s IH]; intros i; simpl occurrences;
    rewrite elem_of_app; intros [Hi|Hi].
  - destruct (Py.startswith sub []) eqn:E; [|by apply elem_of_nil in Hi].
    by apply list_elem_of_singleton in Hi as ->.
  - by apply elem_of_nil in Hi.
  - destruct (Py.startswith sub (c :: s)) eqn:E; [|by apply elem_of_nil in Hi].
    by apply list_elem_of_singleton in Hi as ->.
  - apply list_elem_of_fmap in Hi as (j & -> & Hj). by apply IH.
Qed.

(** Without a bulletin-end marker [find] answers -1, and the pass takes
    that for an offset: the fragment is the row-start marker short of its
    last character, and the scan goes on from that character. *)
Lemma next_fragment_without_end resp_str (i : nat) (l : list nat) :
  occurrences key_string_center resp_str = i :: l ->
  occurrences merc_identifier (drop (i + 29) resp_str) = [] ->
  next_fragment resp_str
  = Some (Z.of_nat i, Z.of_nat i + 28, key_cut, drop (i + 28) resp_str).
Proof.
  intros Hkey Hmerc.
  assert (i ∈ occurrences key_string_center resp_str) as Hi by (rewrite Hkey; left).
  pose proof (occurrences_bound _ _ _ Hi) as Hlen.
  apply occurrences_startswith, startswith_take in Hi.
  change (length key_string_center) with 29%nat in *.
  unfold next_fragment. rewrite find_head, Hkey. simpl.
  destruct (Z.of_nat i >? -1) eqn:E; [|lia].
  rewrite lkeyc_val, slice_from by lia.
  replace (Z.to_nat (Z.of_nat i + 29)) with (i + 29)%nat by lia.
  rewrite find_head, Hmerc. simpl.
  replace (Z.of_nat i + 29 + -1) with (Z.of_nat i + 28) by lia.
  rewrite slice_between, slice_from by lia.
  replace (Z.to_nat (Z.of_nat i + 28 - Z.of_nat i)) with 28%nat by lia.
  replace (Z.to_nat (Z.of_nat i + 28)) with (i + 28)%nat by lia.
  rewrite Nat2Z.id.
  replace (take 28 (drop i resp_str)) with (take 28 (take 29 (drop i resp_str)))
    by (rewrite take_take; f_equal; lia).
  rewrite Hi. done.
Qed.

(** C3, on a page of two rows that lacks the bulletin-end marker: the
    scanner does not stop at the first row-start marker. It yields a
    fragment for each of the two markers (the marker short of its last
    character), appends a row of missing values for each, and the
    extraction of that page ends in a [TypeError]. *)
Theorem missing_end_marker_keeps_scanning :
  occurrences key_string_center blob_no_end = [0; 37]%nat /\
  occurrences merc_identifier blob_no_end = [] /\
  fragments (enough_fuel blob_no_end) blob_no_end = Some [key_cut; key_cut] /\
  fmap (M := result) index
    <$> scan_loop (enough_fuel blob_no_end) header_rates (lit "01/02/2019")
          blob_no_end (empty_frame header_rates)
  = Some (Ok [lit "01/02/2019"; lit "01/02/2019"]) /\
  _scrape_single_date (fun _ _ => blob_no_end) (lit "DI1") (lit "01/02/2019")
  = Some (Raise TypeError).
Proof. repeat split; vm_compute; reflexivity. Qed.

(** ** The field slicer *)

Lemma cell_bounds_unmarked x start_str end_str :
  Py.find sep_string_center x = -1 ->
  Py.find sep_string_right x = -1 ->
  cell_bounds x start_str end_str = (start_str, end_str).
Proof. intros Hc Hr. unfold cell_bounds. rewrite Hc, Hr. done. Qed.

(** The slicer raises only when it runs past the header. *)
Lemma fill_row_in_header header xs i start_str end_str row_df :
  (i + length xs <= length header)%nat ->
  exists row, fill_row header xs i start_str end_str row_df = Ok row.
Proof.
  revert i start_str end_str row_df.
  induction xs as [|x xs IH]; intros i s e row Hlen; simpl; [by eexists|].
  simpl in Hlen. destruct (cell_bounds x s e) as [s' e'].
  destruct (lookup_lt_is_Some_2 header i) as [name Hname]; [lia|].
  case_bool_decide.
  - unfold set_field. rewrite Hname. simpl. apply IH. lia.
  - simpl. apply IH. lia.
Qed.

(** C2, on a row whose second cell carries neither cell marker: the row is
    not aborted, but the field is not left null. The slicer cuts the
    unmarked cell at the bounds the cell before it left behind (29 and 32)
    and stores the three characters found there. *)
Theorem unmarked_cell_is_sliced_with_stale_bounds :
  Py.find sep_string_center unmarked_cell = -1 /\
  Py.find sep_string_right unmarked_cell = -1 /\
  (exists first last_cell,
     fragments (enough_fuel blob_unmarked) blob_unmarked
     = Some [first ++ lit ";" ++ unmarked_cell ++ lit ";" ++ last_cell ++ lit ";;;;;"] /\
     retained (first ++ lit ";" ++ unmarked_cell ++ lit ";" ++ last_cell ++ lit ";;;;;")
     = [first; unmarked_cell; last_cell]) /\
  (df ← scan_loop (enough_fuel blob_unmarked) header_forward (lit "01/02/2019")
          blob_unmarked (empty_frame header_forward);
   Some (df ≫= fun df => get_column df (lit "NUMBER_OF_TRADES")))
  = Some (Ok (ObjCol [Some (lit "89<")])).
Proof.
  split; [vm_compute; reflexivity|]. split; [vm_compute; reflexivity|]. split.
  - exists (key_string_center ++ lit "F23</td>"), (sep_string_right ++ lit "7</td>").
    split; vm_compute; reflexivity.
  - vm_compute; reflexivity.
Qed.

(** ** How many sub-fragments the slicer keeps *)

Lemma split_length sep s : length (Py.split sep s) = S (count_char sep s).
Proof.
  unfold count_char. induction s as [|c s IH]; simpl; [done|].
  destruct (Ascii.eqb c sep); simpl; [by rewrite IH|].
  destruct (Py.split sep s); simpl in *; done.
Qed.

Lemma slice_drop_last_length {A} (l : list A) (k : nat) :
  (0 < k)%nat ->
  length (Py.slice l None (Some (- Z.of_nat k))) = (length l - k)%nat.
Proof.
  intros Hk. unfold Py.slice, Py.clip; simpl.
  destruct (- Z.of_nat k <? 0) eqn:E; [|lia].
  rewrite Z.sub_0_r, drop_0, length_take. lia.
Qed.

Lemma retained_length core :
  length (retained core) = (count_char item_sep core + 1 - 5)%nat.
Proof.
  unfold retained. rewrite (slice_drop_last_length _ 5) by lia.
  rewrite split_length. lia.
Qed.

Lemma header_lengths contract header :
  _get_header contract = Ok header ->
  length header = 18%nat \/ length header = 16%nat \/ length header = 14%nat.
Proof.
  unfold _get_header. repeat case_match; intros [= <-]; auto.
Qed.

(** C7, as the code has it. For every supported contract code, with [N]
    the length of its field list: the slicer keeps exactly [N]
    sub-fragments of a fragment that holds exactly [N + 4] field
    separators, because a split at [k] separators gives [k + 1] pieces and
    the last five are discarded; a fragment with [N + 5] separators leaves
    [N + 1] sub-fragments. *)
Theorem retained_matches_header (contract : str) (header : list str) (core : str) :
  _get_header contract = Ok header ->
  (count_char item_sep core = length header + 4 ->
   length (retained core) = length header)%nat /\
  (count_char item_sep core = length header + 5 ->
   length (retained core) = S (length header))%nat.
Proof.
  intros _. rewrite retained_length. lia.
Qed.

Lemma retained_matches_header_witness :
  length (retained (replicate 18 ";"%char)) = length header_forward.
Proof.
  apply (proj1 (retained_matches_header (lit "FRC") header_forward (replicate 18 ";"%char)
                  eq_refl)).
  reflexivity.
Defined.

(** C7 as stated fails: with [N + 5] separators the slicer keeps [N + 1]
    sub-fragments, not [N]. *)
Lemma separators_off_by_one :
  ~ (forall (contract : str) (header : list str) (core : str),
       _get_header contract = Ok header ->
       count_char item_sep core = (length header + 5)%nat ->
       length (retained core) = length header).
Proof.
  intros H.
  specialize (H (lit "FRC") header_forward (replicate 19 ";"%char) eq_refl eq_refl).
  vm_compute in H. discriminate H.
Qed.

(** ** Unknown contract codes *)

Lemma get_header_unsupported code :
  code ∉ supported ->
  _get_header code = Raise (AttributeError (not_available code)).
Proof.
  unfold supported. rewrite !not_elem_of_app. intros (H1 & H2 & H3).
  unfold _get_header, Py.contains.
  rewrite !bool_decide_eq_false_2 by done. done.
Qed.

(** C9. For every contract code outside the three families the schema
    lookup raises an error whose message is the word Contract, the code and
    the words is not available yet (the class of the error is Python's
    AttributeError). The extraction of a date for a contract that reads,
    in upper case, as that code ends in this error whatever the page holds,
    and so does [scrape] over any range with at least one date: no frame is
    returned. *)
Theorem unsupported_contract_aborts (code : str) :
  code ∉ supported ->
  _get_header code
  = Raise (AttributeError (lit "Contract " ++ code ++ lit " is not available yet.")) /\
  forall (fetch : str -> str -> str) (contract date : str),
    Py.upper contract = code ->
    _scrape_single_date fetch contract date
    = Some (Raise (AttributeError (lit "Contract " ++ code ++ lit " is not available yet."))) /\
    forall (concat : DataFrame -> option DataFrame -> DataFrame) (dates : list str),
      scrape fetch concat contract (date :: dates)
      = Some (Raise (AttributeError (lit "Contract " ++ code ++ lit " is not available yet."))).
Proof.
  intros Hcode. apply get_header_unsupported in Hcode. split; [exact Hcode|].
  intros fetch contract date Hup.
  assert (_scrape_single_date fetch contract date
          = Some (Raise (AttributeError (not_available code)))) as Hone.
  { unfold _scrape_single_date. rewrite Hup, Hcode. done. }
  split; [exact Hone|].
  intros concat dates. unfold scrape. simpl. rewrite Hone. done.
Qed.

Lemma unsupported_contract_aborts_witness :
  _get_header (lit "WIN")
  = Raise (AttributeError (lit "Contract WIN is not available yet.")) /\
  _scrape_single_date (fun _ _ => blob_two_rows) (lit "win") (lit "01/02/2019")
  = Some (Raise (AttributeError (lit "Contract WIN is not available yet."))).
Proof.
  assert (lit "WIN" ∉ supported) as H by (apply (bool_decide_eq_false_1 _); vm_compute; reflexivity).
  split.
  - apply (unsupported_contract_aborts (lit "WIN") H).
  - apply (proj2 (unsupported_contract_aborts (lit "WIN") H)
             (fun _ _ => blob_two_rows) (lit "win") (lit "01/02/2019") eq_refl).
Defined.

(** ** Translation of a legacy maturity code *)

Lemma slice_init {A} (l : list A) (x : A) :
  Py.slice (l ++ [x]) None (Some (-1)) = l.
Proof.
  unfold Py.slice, Py.clip; simpl. rewrite length_app; simpl.
  replace (Z.to_nat (Z.max 0 (-1 + Z.of_nat (length l + 1)) - 0)) with (length l) by lia.
  change (Z.to_nat 0) with 0%nat. by rewrite drop_0, take_app_length.
Qed.

Lemma getitem_last (s : str) (c : ascii) : Py.getitem (s ++ [c]) (-1) = Ok [c].
Proof.
  unfold Py.getitem; simpl. rewrite length_app; simpl.
  replace (-1 + Z.of_nat (length s + 1)) with (Z.of_nat (length s)) by lia.
  rewrite (proj2 (Z.leb_le 0 _)) by lia.
  rewrite (proj2 (Z.ltb_lt _ _)) by lia.
  simpl. rewrite Nat2Z.id, list_lookup_middle by done. done.
Qed.

Lemma date_last (date : str) :
  mmddyyyy date = true ->
  Py.getitem date (-1) = Ok [year_last_char date] /\
  Py.is_digit (year_last_char date) = true.
Proof.
  destruct date as [|m1 [|m2 [|s1 [|d1 [|d2 [|s2 [|y1 [|y2 [|y3 [|y4 [|]]]]]]]]]]];
    try done.
  unfold mmddyyyy. rewrite !andb_true_iff. simpl. rewrite !andb_true_iff.
  intros [[(_ & _ & _ & _ & _ & _ & _ & Hy & _) _] _].
  split; [reflexivity | exact Hy].
Qed.

Lemma translate_legacy (abbr letter : str) (d : ascii) (date : str) :
  mat_dict !! abbr = Some letter ->
  Py.is_digit d = true ->
  mmddyyyy date = true ->
  _change_old_maturity_code (abbr ++ [d]) date
  = Ok (letter
        ++ (if Py.digit_value d >=? Py.digit_value (year_last_char date)
            then lit "0" else lit "1")
        ++ [d]).
Proof.
  intros Habbr Hd Hdate. apply date_last in Hdate as [Hlast Hy].
  unfold _change_old_maturity_code.
  rewrite slice_init. unfold dict_get. rewrite Habbr. simpl.
  rewrite getitem_last. simpl. rewrite Hd. simpl.
  rewrite Hlast. simpl. rewrite Hy. simpl.
  destruct (Py.digit_value d >=? Py.digit_value (year_last_char date)); done.
Qed.

(** C5. For a legacy code made of a month abbreviation of the table and
    one trailing digit, and a bulletin date written mm/dd/yyyy, the
    translation is the month letter, then 0 when the trailing digit is at
    least the last digit of the year and 1 otherwise, then the trailing
    digit. So JAN8 gives F08 in a year that ends in 0 and F18 in a year
    that ends in 9. *)
Theorem change_old_maturity_code_decade (abbr letter : str) (d : ascii) (date : str) :
  mat_dict !! abbr = Some letter ->
  Py.is_digit d = true ->
  mmddyyyy date = true ->
  _change_old_maturity_code (abbr ++ [d]) date
  = Ok (letter
        ++ (if Py.digit_value d >=? Py.digit_value (year_last_char date)
            then lit "0" else lit "1")
        ++ [d]) /\
  (year_last_char date = "0"%char ->
   _change_old_maturity_code (lit "JAN8") date = Ok (lit "F08")) /\
  (year_last_char date = "9"%char ->
   _change_old_maturity_code (lit "JAN8") date = Ok (lit "F18")).
Proof.
  intros Habbr Hd Hdate. split; [by apply translate_legacy|].
  split; intros Hy;
    change (lit "JAN8") with (lit "JAN" ++ ["8"%char]);
    rewrite (translate_legacy (lit "JAN") (lit "F") "8"%char date eq_refl eq_refl Hdate);
    rewrite Hy; reflexivity.
Qed.

Lemma change_old_maturity_code_decade_witness :
  _change_old_maturity_code (lit "DEZ5") (lit "03/15/2005") = Ok (lit "Z05") /\
  _change_old_maturity_code (lit "JAN8") (lit "03/15/2010") = Ok (lit "F08") /\
  _change_old_maturity_code (lit "JAN8") (lit "03/15/2019") = Ok (lit "F18").
Proof.
  split; [|split].
  - apply (proj1 (change_old_maturity_code_decade (lit "DEZ") (lit "Z") "5"%char
                    (lit "03/15/2005") eq_refl eq_refl eq_refl)).
  - apply (proj2 (change_old_maturity_code_decade (lit "DEZ") (lit "Z") "5"%char
                    (lit "03/15/2010") eq_refl eq_refl eq_refl)). reflexivity.
  - apply (proj2 (change_old_maturity_code_decade (lit "DEZ") (lit "Z") "5"%char
                    (lit "03/15/2019") eq_refl eq_refl eq_refl)). reflexivity.
Defined.

(** ** Detection of the legacy format *)

Lemma mat_dict_keys (k v : str) : mat_dict !! k = Some v -> length k = 3%nat.
Proof.
  intros H. apply elem_of_list_to_map_2 in H. simpl in H.
  repeat (apply elem_of_cons in H as [[= -> ->]|H]; [reflexivity|]).
  by apply elem_of_nil in H.
Qed.

(** A code of three characters is no legacy code: its first two characters
    are no key of the month table. *)
Lemma canonical_code_not_translated (code date : str) :
  length code = 3%nat ->
  _change_old_maturity_code code date
  = Raise (KeyError (Py.slice code None (Some (-1)))).
Proof.
  intros Hlen. unfold _change_old_maturity_code, dict_get.
  destruct (mat_dict !! Py.slice code None (Some (-1))) as [v|] eqn:E; [|done].
  apply mat_dict_keys in E.
  destruct code as [|a [|b [|c [|]]]]; simpl in Hlen; try lia.
  vm_compute in E. discriminate E.
Qed.

(** C4, as the code has it. For a frame whose first maturity code is a
    string: the legacy format is detected exactly when that first code has
    at least 4 characters. When it has fewer, the frame comes back as it
    is, each maturity code unchanged; when it has 4 or more, each code of
    the column, whatever its length, goes through the translation. *)
Theorem change_contract_name_detection (df : DataFrame) (date c0 : str)
    (vals : list (option str)) :
  get_column df (lit "MATURITY_CODE") = Ok (ObjCol (Some c0 :: vals)) ->
  ((length c0 < 4)%nat -> _change_contract_name df date = Ok df) /\
  ((4 <= length c0)%nat ->
   _change_contract_name df date
   = (c ← series_apply (fun x => _change_old_maturity_code x date)
            (ObjCol (Some c0 :: vals));
      Ok (set_column df (lit "MATURITY_CODE") c))).
Proof.
  intros Hcol. unfold _change_contract_name. rewrite Hcol.
  cbn [mbind result_bind len_iloc0].
  split; intros Hlen.
  - destruct (Z.of_nat (length c0) >=? 4) eqn:E; [lia|done].
  - destruct (Z.of_nat (length c0) >=? 4) eqn:E; [done|lia].
Qed.

Lemma change_contract_name_detection_witness :
  _change_contract_name
    (mkDF [lit "01/02/2019"] [(lit "MATURITY_CODE", ObjCol [Some (lit "F23")])])
    (lit "01/02/2019")
  = Ok (mkDF [lit "01/02/2019"] [(lit "MATURITY_CODE", ObjCol [Some (lit "F23")])]).
Proof.
  apply (proj1 (change_contract_name_detection
                  (mkDF [lit "01/02/2019"] [(lit "MATURITY_CODE", ObjCol [Some (lit "F23")])])
                  (lit "01/02/2019") (lit "F23") [] eq_refl)).
  simpl. lia.
Defined.

(** C4 as stated fails: in a frame whose first code is a legacy one, a
    canonical code further down is not returned unchanged; the call ends
    in a [KeyError]. *)
Lemma canonical_code_in_legacy_frame :
  ~ (forall (df : DataFrame) (date : str) (codes : list (option str)) (i : nat) (code : str),
       get_column df (lit "MATURITY_CODE") = Ok (ObjCol codes) ->
       codes !! i = Some (Some code) ->
       length code = 3%nat ->
       exists df' codes',
         _change_contract_name df date = Ok df' /\
         get_column df' (lit "MATURITY_CODE") = Ok (ObjCol codes') /\
         codes' !! i = Some (Some code)).
Proof.
  intros H.
  destruct (H df_mixed (lit "01/02/2009") [Some (lit "JAN8"); Some (lit "F23")]
              1%nat (lit "F23") eq_refl eq_refl eq_refl) as (df' & codes' & Hrun & _).
  vm_compute in Hrun. discriminate Hrun.
Qed.

(** ** Columns of a frame *)

Lemma get_column_elem df name c :
  get_column df name = Ok c -> (name, c) ∈ columns df.
Proof.
  unfold get_column.
  destruct (list_find _ _) as [[i [n c']]|] eqn:E; [|done].
  intros [= <-]. apply list_find_Some in E as (Hi & Hn & _). simpl in Hn. subst n.
  by eapply list_elem_of_lookup_2.
Qed.

Lemma get_column_is_Some df name :
  name ∈ col_names df -> exists c, get_column df name = Ok c.
Proof.
  unfold col_names, get_column. intros ([n c] & -> & Hin)%list_elem_of_fmap.
  destruct (list_find _ _) as [[i [n' c']]|] eqn:E; [by eexists|].
  apply list_find_None in E. rewrite Forall_forall in E.
  by destruct (E _ Hin).
Qed.

Lemma set_column_names df name c : col_names (set_column df name c) = col_names df.
Proof.
  unfold col_names, set_column. simpl. rewrite <- list_fmap_compose.
  apply list_fmap_ext. intros i [n c'] _. simpl. by case_decide.
Qed.

Lemma set_column_index df name c : index (set_column df name c) = index df.
Proof. done. Qed.

Lemma set_column_elem df name c n c' :
  (n, c') ∈ columns (set_column df name c) ->
  (n = name /\ c' = c) \/ (n ≠ name /\ (n, c') ∈ columns df).
Proof.
  unfold set_column. simpl. intros ([n0 c0] & Heq & Hin)%list_elem_of_fmap.
  simpl in Heq. case_decide; simplify_eq; auto.
Qed.

(** ** [_parse_str2num] leaves the designated columns numeric *)

Lemma parse_cols_frame cols df df1 :
  parse_cols cols df = Ok df1 ->
  index df1 = index df /\ col_names df1 = col_names df.
Proof.
  revert df. induction cols as [|col cols IH]; intros df; simpl.
  - by intros [= <-].
  - destruct (get_column df col) as [c|]; [|done]. simpl.
    destruct (str_replace_non_numeric c) as [c1|]; [|done]. simpl.
    destruct (get_column (set_column df col c1) col) as [c2|]; [|done]. simpl.
    intros [-> ->]%IH. by rewrite !set_column_names.
Qed.

Lemma parse_cols_numeric (P : str -> Prop) cols df df1 :
  parse_cols cols df = Ok df1 ->
  (forall name c, (name, c) ∈ columns df -> P name -> is_numeric c = true) ->
  forall name c, (name, c) ∈ columns df1 -> P name \/ name ∈ cols ->
    is_numeric c = true.
Proof.
  revert P df. induction cols as [|col cols IH]; intros P df; simpl.
  - intros [= <-] Hdf name c Hin [HP|Hnil]; [eauto|by apply elem_of_nil in Hnil].
  - destruct (get_column df col) as [c0|]; [|done]. simpl.
    destruct (str_replace_non_numeric c0) as [c1|]; [|done]. simpl.
    destruct (get_column (set_column df col c1) col) as [c2|]; [|done]. simpl.
    intros Hrun Hdf name c Hin Hname.
    apply (IH (fun n => P n \/ n = col) _ Hrun) with (name := name); [|done|].
    + intros n c' Hn HP.
      apply set_column_elem in Hn as [[-> ->]|[Hne Hn]]; [by destruct c2|].
      apply set_column_elem in Hn as [[-> ->]|[_ Hn]]; [done|].
      destruct HP as [HP|HP]; [eauto|done].
    + rewrite elem_of_cons in Hname. tauto.
Qed.

Lemma parse_str2num_numeric df df1 :
  _parse_str2num df = Ok df1 ->
  index df1 = index df /\ col_names df1 = col_names df /\
  forall name c, (name, c) ∈ columns df1 -> name ∈ col2num -> is_numeric c = true.
Proof.
  unfold _parse_str2num. intros Hrun.
  destruct (parse_cols_frame _ _ _ Hrun) as [Hindex Hnames].
  split; [done|]. split; [done|]. intros name c Hin Hnum.
  apply (parse_cols_numeric (fun _ => False) _ _ _ Hrun) with (name := name);
    [tauto|done|].
  right. apply elem_of_elements, elem_of_intersection. split; [|done].
  apply elem_of_list_to_set. rewrite <- Hnames.
  unfold col_names. apply list_elem_of_fmap. exists (name, c). split; [reflexivity|assumption].
Qed.

(** ** [_drop_useless_columns] *)

Lemma df_drop_columns df name df' :
  df_drop df name = Ok df' ->
  index df' = index df /\
  forall nc, nc ∈ columns df' <-> nc ∈ columns df /\ nc.1 ≠ name.
Proof.
  unfold df_drop. case_bool_decide; [|done]. intros [= <-]. simpl.
  split; [done|]. intros nc.
  rewrite !list_elem_of_In, filter_In, negb_true_iff, bool_decide_eq_false. done.
Qed.

Lemma drop_cols_columns cols df df' :
  drop_cols cols df = Ok df' ->
  index df' = index df /\
  forall nc, nc ∈ columns df' <-> nc ∈ columns df /\ nc.1 ∉ cols.
Proof.
  revert df. induction cols as [|col cols IH]; intros df; simpl.
  - intros [= <-]. split; [done|]. intros nc. split; [|tauto].
    intros H. split; [done|]. apply not_elem_of_nil.
  - destruct (df_drop df col) as [df1|] eqn:E; [|done]. simpl.
    apply df_drop_columns in E as [Hi1 Hc1].
    intros [Hi Hc]%IH. split; [congruence|]. intros nc.
    rewrite Hc, Hc1, not_elem_of_cons. tauto.
Qed.

Lemma drop_useless_columns_clean df df' :
  _drop_useless_columns df = Ok df' ->
  index df' = index df /\
  (forall nc, nc ∈ columns df' -> nc ∈ columns df) /\
  list_to_set (col_names df') ∩ col2drop = (∅ : gset str).
Proof.
  unfold _drop_useless_columns. intros [Hi Hc]%drop_cols_columns.
  split; [done|]. split; [intros nc; rewrite Hc; tauto|].
  apply elem_of_equiv_empty_L. intros name [Hname Hdrop]%elem_of_intersection.
  apply elem_of_list_to_set in Hname. unfold col_names in Hname.
  apply list_elem_of_fmap in Hname as ([n c] & -> & Hin).
  apply Hc in Hin as [Hin Hnot]. apply Hnot.
  apply elem_of_elements, elem_of_intersection. split; [|done].
  apply elem_of_list_to_set. unfold col_names. apply list_elem_of_fmap. by exists (n, c).
Qed.

Lemma drop_useless_columns_again df df' :
  _drop_useless_columns df = Ok df' -> _drop_useless_columns df' = Ok df'.
Proof.
  intros (_ & _ & Hclean)%drop_useless_columns_clean.
  unfold _drop_useless_columns. rewrite Hclean, elements_empty. done.
Qed.

(** ** A second run of the normalizer *)

(** C1, as the code has it. For every frame that one run of the normalizer
    returned, a second run returns the identical frame without error when
    the frame has no column of the numeric field set, and raises an
    [AttributeError] when it has one: [_parse_str2num] asks a column that
    is numeric by now for its string accessor. The noise-column step alone
    does return the frame unchanged. *)
Theorem normalizer_second_run (df df' : DataFrame) :
  normalizer df = Ok df' ->
  normalizer df'
  = (if bool_decide (list_to_set (col_names df') ∩ col2num = (∅ : gset str))
     then Ok df' else Raise str_accessor_error) /\
  _drop_useless_columns df' = Ok df'.
Proof.
  unfold normalizer.
  destruct (_parse_str2num df) as [df1|] eqn:Hparse; [|done]. simpl. intros Hdrop.
  apply parse_str2num_numeric in Hparse as (_ & _ & Hnum).
  pose proof (drop_useless_columns_again _ _ Hdrop) as Hagain.
  apply drop_useless_columns_clean in Hdrop as (_ & Hsub & _).
  split; [|done]. unfold _parse_str2num. case_bool_decide as Hset.
  - rewrite Hset, elements_empty. done.
  - destruct (elements _) as [|col cols] eqn:Hel.
    + apply elements_empty_inv, leibniz_equiv in Hel. done.
    + assert (col ∈ list_to_set (col_names df') ∩ col2num) as Hcol
        by (apply elem_of_elements; rewrite Hel; left).
      apply elem_of_intersection in Hcol as [Hin Hcolnum].
      apply elem_of_list_to_set, get_column_is_Some in Hin as [c Hget].
      pose proof (Hnum _ _ (Hsub _ (get_column_elem _ _ _ Hget)) Hcolnum) as Hc.
      simpl. rewrite Hget. destruct c; [done|]. done.
Qed.

Lemma normalizer_second_run_witness :
  normalizer df_once = Raise str_accessor_error /\
  _drop_useless_columns df_once = Ok df_once.
Proof.
  assert (normalizer df_raw = Ok df_once) as Hrun by (vm_compute; reflexivity).
  split.
  - apply (proj1 (normalizer_second_run df_raw df_once Hrun)).
  - apply (proj2 (normalizer_second_run df_raw df_once Hrun)).
Defined.

(** C1 as stated fails: the frame one run returns makes the next run
    raise. *)
Lemma normalizer_not_idempotent :
  ~ (forall df df' : DataFrame, normalizer df = Ok df' -> normalizer df' = Ok df').
Proof.
  intros H.
  assert (normalizer df_raw = Ok df_once) as Hrun by (vm_compute; reflexivity).
  apply H in Hrun. vm_compute in Hrun. discriminate Hrun.
Qed.

(** ** The coercion of a frame of strings *)

Lemma names_unique (l : list (str * column)) (name : str) (c1 c2 : column) :
  NoDup (l.*1) -> (name, c1) ∈ l -> (name, c2) ∈ l -> c1 = c2.
Proof.
  induction l as [|[n c] l IH]; simpl; [by intros _ ?%elem_of_nil|].
  rewrite NoDup_cons, !elem_of_cons. intros [Hn Hl] [H1|H1] [H2|H2].
  - congruence.
  - simplify_eq. destruct Hn. apply list_elem_of_fmap. by exists (n, c2).
  - simplify_eq. destruct Hn. apply list_elem_of_fmap. by exists (n, c1).
  - by apply IH.
Qed.

Lemma set_column_twice df name c1 c2 :
  set_column (set_column df name c1) name c2 = set_column df name c2.
Proof.
  unfold set_column. simpl. f_equal. rewrite <- list_fmap_compose.
  apply list_fmap_ext. intros i [n c] _. simpl.
  repeat (case_decide; simpl in *); done.
Qed.

Lemma get_set_column df name c :
  name ∈ col_names df -> get_column (set_column df name c) name = Ok c.
Proof.
  intros Hin. rewrite <- (set_column_names df name c) in Hin.
  apply get_column_is_Some in Hin as [c' Hget]. rewrite Hget.
  apply get_column_elem, set_column_elem in Hget as [[_ ->]|[Hne _]]; done.
Qed.

Lemma to_numeric_after_replace vals :
  NumCol ((fun v : option str => v ≫= parse_number)
            <$> (option_map strip_non_numeric <$> vals))
  = coerce (ObjCol vals).
Proof.
  simpl. f_equal. rewrite <- list_fmap_compose.
  apply list_fmap_ext. intros i [s|] _; done.
Qed.

Lemma parse_cols_object cols df :
  NoDup cols ->
  NoDup (col_names df) ->
  (forall col, col ∈ cols -> col ∈ col_names df) ->
  (forall name c, (name, c) ∈ columns df -> name ∈ cols -> is_object c = true) ->
  parse_cols cols df
  = Ok (mkDF (index df)
          ((fun nc => if bool_decide (nc.1 ∈ cols) then (nc.1, coerce nc.2) else nc)
             <$> columns df)).
Proof.
  revert df. induction cols as [|col cols IH]; intros df Hcols Hnames Hin Hobj.
  - simpl. destruct df as [idx cs]. simpl. do 2 f_equal.
    rewrite <- (list_fmap_id cs) at 1. apply list_fmap_ext. intros i nc _.
    rewrite ?bool_decide_eq_false_2 by apply not_elem_of_nil. done.
  - apply NoDup_cons in Hcols as [Hfresh Hcols].
    destruct (get_column_is_Some df col) as [c0 Hget]; [apply Hin; left|].
    pose proof (get_column_elem _ _ _ Hget) as Hc0.
    assert (is_object c0 = true) as Hc0obj by (eapply Hobj; [done|left]).
    destruct c0 as [vals|]; [|done].
    simpl. rewrite Hget. simpl.
    rewrite get_set_column by (apply Hin; left). simpl.
    rewrite set_column_twice, to_numeric_after_replace.
    rewrite IH; [|done|by rewrite set_column_names| |].
    + simpl. do 2 f_equal. rewrite <- list_fmap_compose.
      apply list_fmap_ext. intros i [n c] Hi. simpl.
      apply list_elem_of_lookup_2 in Hi.
      case_decide as Hn; simpl.
      * subst n. rewrite (names_unique _ _ _ _ Hnames Hi Hc0).
        rewrite bool_decide_eq_false_2 by done.
        rewrite bool_decide_eq_true_2 by left. done.
      * rewrite (bool_decide_ext (n ∈ col :: cols) (n ∈ cols)); [done|].
        rewrite elem_of_cons. tauto.
    + intros col' Hcol'. rewrite set_column_names. apply Hin. by right.
    + intros n c Hn Hmem.
      apply set_column_elem in Hn as [[-> _]|[_ Hn]]; [done|].
      eapply Hobj; [done|by right].
Qed.

Lemma strip_without_digit (s : str) :
  (forall c, c ∈ s -> Py.is_digit c = false) ->
  Forall (fun c => c = "."%char) (strip_non_numeric s).
Proof.
  intros Hs. apply Forall_forall. intros c.
  unfold strip_non_numeric. rewrite list_elem_of_In, filter_In, <- list_elem_of_In.
  intros [Hc Hnum]. unfold numeric_char in Hnum.
  rewrite (Hs c Hc) in Hnum. simpl in Hnum. by apply Ascii.eqb_eq.
Qed.

Lemma parse_number_points (s : str) :
  Forall (fun c => c = "."%char) s -> parse_number s = None.
Proof.
  intros Hs. destruct Hs as [|c s -> Hs]; [reflexivity|].
  destruct Hs as [|c s -> Hs]; reflexivity.
Qed.

(** C8. On a frame whose designated numeric columns hold strings and
    missing values, as every frame the scanner builds does, the coercion
    never raises: it returns the frame in which each designated column is
    made of the numbers parsed from the stripped strings, with a missing
    value where the string was missing or does not parse. The raw value
    1.234,56 strips to 1.23456 and parses to that one number; a raw value
    without any digit parses to a missing value. *)
Theorem parse_str2num_never_raises (df : DataFrame) :
  NoDup (col_names df) ->
  (forall name c, (name, c) ∈ columns df -> name ∈ col2num -> is_object c = true) ->
  _parse_str2num df = Ok (coerced df) /\
  strip_non_numeric (lit "1.234,56") = lit "1.23456" /\
  parse_number (strip_non_numeric (lit "1.234,56")) = Some (Dec 123456 5) /\
  forall s : str,
    (forall c, c ∈ s -> Py.is_digit c = false) ->
    parse_number (strip_non_numeric s) = None.
Proof.
  intros Hnames Hobj. split; [|split; [reflexivity|split; [reflexivity|]]].
  - unfold _parse_str2num. rewrite parse_cols_object; [|apply NoDup_elements|done| |].
    + unfold coerced. do 2 f_equal. apply list_fmap_ext. intros i [n c] Hi. simpl.
      apply list_elem_of_lookup_2 in Hi.
      rewrite (bool_decide_ext _ (n ∈ col2num)); [done|].
      rewrite elem_of_elements, elem_of_intersection, elem_of_list_to_set.
      split; [tauto|]. intros Hn. split; [|done].
      unfold col_names. apply list_elem_of_fmap. exists (n, c).
      split; [reflexivity|assumption].
    + intros col. rewrite elem_of_elements, elem_of_intersection, elem_of_list_to_set.
      tauto.
    + intros n c Hn. rewrite elem_of_elements, elem_of_intersection. intros [_ Hnum].
      by eapply Hobj.
  - intros s Hs. by apply parse_number_points, strip_without_digit.
Qed.

Lemma parse_str2num_never_raises_witness :
  _parse_str2num df_raw
  = Ok (mkDF [lit "01/02/2019"]
          [(lit "MATURITY_CODE", ObjCol [Some (lit "F23")]);
           (lit "JUNK1", ObjCol [None]);
           (lit "LAST_PRICE", NumCol [Some (Dec 123456 5)]);
           (lit "LAST_BID", NumCol [None])]).
Proof.
  assert (NoDup (col_names df_raw)) as Hnames
    by (apply (bool_decide_unpack _); vm_compute; reflexivity).
  assert (forall name c, (name, c) ∈ columns df_raw -> name ∈ col2num -> is_object c = true)
    as Hobj.
  { intros name c Hin _. simpl in Hin.
    repeat (apply elem_of_cons in Hin as [[= -> ->]|Hin]; [reflexivity|]).
    by apply elem_of_nil in Hin. }
  rewrite (proj1 (parse_str2num_never_raises df_raw Hnames Hobj)).
  vm_compute. reflexivity.
Defined.

(** * Further properties of the extractor *)

(** ** The schema registry *)

Lemma get_header_nodup (code : str) (header : list str) :
  _get_header code = Ok header -> NoDup header.
Proof.
  unfold _get_header. repeat case_match; intros [= <-];
    apply (bool_decide_unpack _); vm_compute; reflexivity.
Qed.

(** X1. A lookup that succeeds was for one of the nine supported codes, and
    the field list it returns has no name twice, starts with the maturity
    code and has no field called CONTRACT. *)
Theorem get_header_schema (code : str) (header : list str) :
  _get_header code = Ok header ->
  code ∈ supported /\ NoDup header /\
  header !! 0%nat = Some (lit "MATURITY_CODE") /\ lit "CONTRACT" ∉ header.
Proof.
  unfold _get_header, Py.contains, supported.
  repeat case_bool_decide; intros [= <-];
    (split; [rewrite !elem_of_app; tauto|]);
    (split; [apply (bool_decide_unpack _); vm_compute; reflexivity|]);
    (split; [reflexivity|apply (bool_decide_unpack _); vm_compute; reflexivity]).
Qed.

Lemma get_header_schema_witness :
  lit "DOL" ∈ supported /\ NoDup header_futures /\
  header_futures !! 0%nat = Some (lit "MATURITY_CODE") /\ lit "CONTRACT" ∉ header_futures.
Proof. apply (get_header_schema (lit "DOL") header_futures). reflexivity. Defined.

Lemma get_header_supported (code : str) :
  code ∈ supported -> exists header, _get_header code = Ok header.
Proof.
  unfold supported, _get_header, Py.contains. rewrite !elem_of_app. intros H.
  repeat case_bool_decide; eauto. tauto.
Qed.

(** ** Upper case *)

Lemma upper_idemp (s : str) : Py.upper (Py.upper s) = Py.upper s.
Proof.
  unfold Py.upper. rewrite List.map_map. apply List.map_ext.
  intros c. destruct c as [[] [] [] [] [] [] [] []]; vm_compute; reflexivity.
Qed.

(** X2. The extraction does not look at the case of the contract code: a
    code and its upper-case form give the same result for every date and
    page source, in [_scrape_single_date] and in [scrape]. *)
Theorem extraction_ignores_case (fetch : str -> str -> str)
    (concat : DataFrame -> option DataFrame -> DataFrame)
    (contract date : str) (dates : list str) :
  _scrape_single_date fetch (Py.upper contract) date
  = _scrape_single_date fetch contract date /\
  scrape fetch concat (Py.upper contract) dates = scrape fetch concat contract dates.
Proof.
  assert (forall d, _scrape_single_date fetch (Py.upper contract) d
                    = _scrape_single_date fetch contract d) as Hone.
  { intros d. unfold _scrape_single_date. by rewrite upper_idemp. }
  split; [apply Hone|]. unfold scrape. generalize (mkDF [] []).
  induction dates as [|d dates IH]; intros df; simpl; [done|].
  rewrite Hone. destruct (_scrape_single_date fetch contract d) as [[df_date|]|]; auto.
Qed.

(** ** What the scanner's fragments are *)

Lemma index_of_startswith sub s i :
  Py.index_of sub s = Some i -> Py.startswith sub (drop i s) = true.
Proof.
  rewrite index_of_head. intros H. apply occurrences_startswith.
  destruct (occurrences sub s) as [|j l]; simplify_eq/=. left.
Qed.

Lemma next_fragment_inv resp_str start_str end_str core rest :
  next_fragment resp_str = Some (start_str, end_str, core, rest) ->
  exists i : nat,
    start_str = Z.of_nat i /\
    Py.index_of key_string_center resp_str = Some i /\
    Z.of_nat i + 28 <= end_str <= Z.of_nat (length resp_str) /\
    core = take (Z.to_nat end_str - i) (drop i resp_str) /\
    rest = drop (Z.to_nat end_str) resp_str.
Proof.
  intros Hnext. pose proof (next_fragment_rest _ _ _ _ _ Hnext) as [[_ Hhi] Hrest].
  revert Hnext. unfold next_fragment.
  destruct (Py.index_of key_string_center resp_str) as [i|] eqn:Hi;
    [|by unfold Py.find; rewrite Hi].
  assert (Py.find key_string_center resp_str = Z.of_nat i) as Hfind
    by (unfold Py.find; by rewrite Hi).
  rewrite Hfind. destruct (Z.of_nat i >? -1) eqn:E; [|done].
  intros [= <- <- <- <-]. exists i.
  pose proof (index_of_bound _ _ _ Hi) as Hlen.
  change (length key_string_center) with 29%nat in Hlen.
  rewrite lkeyc_val in *.
  destruct (find_range merc_identifier
              (Py.slice resp_str (Some (Z.of_nat i + 29)) None)) as [Hlo _].
  split; [done|]. split; [done|]. split; [lia|]. split; [|done].
  rewrite slice_between by lia. rewrite Nat2Z.id. f_equal. lia.
Qed.

Lemma next_fragment_piece resp_str start_str end_str core rest :
  next_fragment resp_str = Some (start_str, end_str, core, rest) ->
  take 28 core = key_cut /\ (28 <= length core)%nat /\
  core ++ rest = drop (Z.to_nat start_str) resp_str.
Proof.
  intros (i & -> & Hi & [Hlo Hhi] & -> & ->)%next_fragment_inv.
  pose proof (index_of_bound _ _ _ Hi) as Hlen.
  change (length key_string_center) with 29%nat in Hlen.
  apply index_of_startswith, startswith_take in Hi.
  change (length key_string_center) with 29%nat in Hi.
  rewrite Nat2Z.id. split; [|split].
  - rewrite take_take.
    replace (28 `min` (Z.to_nat end_str - i))%nat with (28 `min` 29)%nat by lia.
    rewrite <- take_take, Hi. reflexivity.
  - rewrite length_take, length_drop. lia.
  - replace (Z.to_nat end_str) with (i + (Z.to_nat end_str - i))%nat at 2 by lia.
    rewrite <- drop_drop. apply take_drop.
Qed.

(** X3. The fragments the scanner yields are pieces of the blob taken one
    after the other: each begins with the row-start marker short of its
    last character, so has at least 28 characters, and together they are
    no longer than the blob; a blob of [n] characters yields at most
    [n / 28] fragments. *)
Theorem fragments_are_pieces (fuel : nat) (blob : str) (frags : list str) :
  fragments fuel blob = Some frags ->
  Forall (fun f => take 28 f = key_cut /\ (28 <= length f)%nat) frags /\
  (sum_list (length <$> frags) <= length blob)%nat /\
  (28 * length frags <= length blob)%nat.
Proof.
  revert blob frags. induction fuel as [|fuel IH]; intros blob frags; simpl; [done|].
  destruct (next_fragment blob) as [[[[s e] core] rest]|] eqn:Hnext.
  - destruct (fragments fuel rest) as [frags'|] eqn:Hrest; [|done].
    intros [= <-]. destruct (IH _ _ Hrest) as (Hall & Hsum & Hcount).
    apply next_fragment_piece in Hnext as (Hcut & Hlen & Happ).
    apply (f_equal length) in Happ. rewrite length_app, length_drop in Happ.
    split; [by constructor|].
    assert (sum_list (length <$> core :: frags')
            = (length core + sum_list (length <$> frags'))%nat) as -> by reflexivity.
    assert (length (core :: frags') = S (length frags')) as -> by reflexivity.
    lia.
  - intros [= <-]. split; [constructor|]. simpl. lia.
Qed.

Lemma fragments_are_pieces_witness :
  Forall (fun f => take 28 f = key_cut /\ (28 <= length f)%nat) [key_cut; key_cut] /\
  (sum_list (length <$> [key_cut; key_cut]) <= length blob_no_end)%nat /\
  (28 * length [key_cut; key_cut] <= length blob_no_end)%nat.
Proof.
  apply (fragments_are_pieces (enough_fuel blob_no_end) blob_no_end).
  vm_compute. reflexivity.
Defined.

(** ** The frame the scanner builds *)

Lemma fill_row_length header xs i start_str end_str row_df row :
  fill_row header xs i start_str end_str row_df = Ok row ->
  length row = length row_df.
Proof.
  revert i start_str end_str row_df.
  induction xs as [|x xs IH]; intros i s e row_df; simpl; [by intros [= <-]|].
  destruct (cell_bounds x s e) as [s' e']. case_bool_decide.
  - unfold set_field. destruct (header !! i); [|done]. simpl.
    intros ->%IH. apply length_insert.
  - simpl. apply IH.
Qed.

Lemma zip_push_object (cols : list (str * column)) (row : list (option str)) (n : nat) :
  length row = length cols ->
  Forall (fun nc => exists vals, nc.2 = ObjCol vals /\ length vals = n) cols ->
  (zip_with (fun nc v => (nc.1, col_push nc.2 v)) cols row).*1 = cols.*1 /\
  Forall (fun nc => exists vals, nc.2 = ObjCol vals /\ length vals = S n)
         (zip_with (fun nc v => (nc.1, col_push nc.2 v)) cols row).
Proof.
  revert row. induction cols as [|[name c] cols IH]; intros [|v row] Hlen Hall;
    simpl in *; try done.
  apply Forall_cons in Hall as [(vals & Hc & Hvals) Hall]. simpl in Hc. subst c.
  destruct (IH row) as [Hnames Hcols]; [lia|done|].
  split; [f_equal; exact Hnames|]. constructor; [|done].
  exists (vals ++ [v]). split; [done|]. rewrite length_app. simpl. lia.
Qed.

Lemma empty_frame_object header : object_frame header (empty_frame header).
Proof.
  unfold object_frame, empty_frame, col_names. simpl. split.
  - rewrite <- list_fmap_compose. apply list_fmap_id.
  - apply Forall_fmap, Forall_true. intros name. by exists [].
Qed.

Lemma df_append_object header df date row :
  object_frame header df -> length row = length header ->
  object_frame header (df_append df date row).
Proof.
  unfold object_frame, col_names. intros [Hnames Hall] Hlen. simpl.
  destruct (zip_push_object (columns df) row (length (index df))) as [Hn Hc];
    [by rewrite Hlen, <- Hnames, length_fmap|done|].
  split; [by rewrite Hn|]. rewrite length_app. simpl.
  by replace (length (index df) + 1)%nat with (S (length (index df))) by lia.
Qed.

Lemma scan_loop_object (fuel : nat) (header : list str) (date blob : str)
    (df df' : DataFrame) :
  object_frame header df ->
  scan_loop fuel header date blob df = Some (Ok df') ->
  object_frame header df' /\
  exists frags, fragments fuel blob = Some frags /\
    index df' = index df ++ replicate (length frags) date.
Proof.
  revert blob df. induction fuel as [|fuel IH]; intros blob df Hdf; simpl; [done|].
  destruct (next_fragment blob) as [[[[s e] core] rest]|].
  - destruct (fill_row _ _ _ _ _ _) as [row|] eqn:Hrow; [|done].
    apply fill_row_length in Hrow. unfold new_row in Hrow. rewrite length_replicate in Hrow.
    intros Hrun. apply IH in Hrun as (Hdf' & frags & -> & Hindex);
      [|by apply df_append_object].
    split; [done|]. exists (core :: frags). split; [done|].
    rewrite Hindex. simpl. by rewrite <- app_assoc.
  - intros [= <-]. split; [done|]. exists []. split; [done|].
    simpl. by rewrite app_nil_r.
Qed.

(** X4. Whatever the page holds, the frame the scanner's loop returns has
    the header's columns in the header's order, each of them a column of
    strings and missing values with one cell for each row, and its index
    is the old index followed by the date once for each fragment. *)
Theorem scan_loop_frame (fuel : nat) (header : list str) (date blob : str)
    (df df' : DataFrame) :
  object_frame header df ->
  scan_loop fuel header date blob df = Some (Ok df') ->
  object_frame header df' /\
  exists frags, fragments fuel blob = Some frags /\
    index df' = index df ++ replicate (length frags) date.
Proof. apply scan_loop_object. Qed.

Lemma scan_loop_frame_witness :
  exists df',
    scan_loop (enough_fuel blob_two_rows) header_rates (lit "01/02/2019") blob_two_rows
      (empty_frame header_rates) = Some (Ok df') /\
    object_frame header_rates df' /\
    index df' = [lit "01/02/2019"].
Proof.
  destruct (scan_loop (enough_fuel blob_two_rows) header_rates (lit "01/02/2019")
              blob_two_rows (empty_frame header_rates)) as [[df'|]|] eqn:Hrun;
    [|vm_compute in Hrun; discriminate Hrun..].
  exists df'. split; [done|].
  destruct (scan_loop_frame _ _ _ _ _ _ (empty_frame_object header_rates) Hrun)
    as (Hobj & frags & Hfrags & Hindex).
  split; [done|]. vm_compute in Hfrags. injection Hfrags as <-. exact Hindex.
Defined.

(** ** The slicer within the header *)

(** X5. When the sub-fragments from position [i] on are no more than the
    header has fields left, the slicer raises nothing: it returns a row of
    the same length whose cells before [i] are untouched. *)
Theorem slicer_stays_in_header (header : list str) (xs : list str) (i : nat)
    (start_str end_str : Z) (row_df : list (option str)) :
  (i + length xs <= length header)%nat ->
  exists row,
    fill_row header xs i start_str end_str row_df = Ok row /\
    length row = length row_df /\
    forall j, (j < i)%nat -> row !! j = row_df !! j.
Proof.
  revert i start_str end_str row_df.
  induction xs as [|x xs IH]; intros i s e row_df Hlen; simpl.
  - by exists row_df.
  - simpl in Hlen. destruct (cell_bounds x s e) as [s' e'].
    destruct (lookup_lt_is_Some_2 header i) as [name Hname]; [lia|].
    case_bool_decide.
    + unfold set_field. rewrite Hname. simpl.
      destruct (IH (S i) s' e' (<[i:=Some (cell_text x s' e')]> row_df))
        as (row & -> & Hrow & Hkeep); [lia|].
      exists row. split; [done|]. split; [by rewrite Hrow, length_insert|].
      intros j Hj. rewrite Hkeep by lia. apply list_lookup_insert_ne. lia.
    + simpl. destruct (IH (S i) s' e' row_df) as (row & -> & Hrow & Hkeep); [lia|].
      exists row. split; [done|]. split; [done|]. intros j Hj. apply Hkeep. lia.
Qed.

Lemma slicer_stays_in_header_witness :
  exists row,
    fill_row header_forward [lit "a"; lit "b"] 1 0 1 (new_row header_forward) = Ok row /\
    length row = length (new_row header_forward) /\
    forall j, (j < 1)%nat -> row !! j = new_row header_forward !! j.
Proof.
  apply (slicer_stays_in_header header_forward [lit "a"; lit "b"] 1 0 1).
  vm_compute. lia.
Defined.
